(** * icd: the callgrind control entry points of [src/valgrind_icd.cpp]

    The file exports two functions to R, [valgrindCallgrindStart] and
    [valgrindCallgrindStop].  Each one either drives Valgrind's callgrind
    tool through its client-request macros (when the package is compiled
    with [ICD_VALGRIND]) or only logs a debug message, and returns [0].

    Both functions are embedded as computations in a small monad that
    threads the chronological history of everything the process has
    emitted so far: lines on [Rcout], callgrind client requests and debug
    diagnostics. *)

From Stdlib Require Import String List ZArith.
Import ListNotations.
Local Open Scope string_scope.
Local Open Scope list_scope.
Local Open Scope Z_scope.

(** ** Build configuration *)

(** The preprocessor symbols the translation unit is compiled under.
    [ICD_VALGRIND] selects the [#ifdef] branch of both functions;
    [debug_logging] tells whether the [DEBUG] logging macro is compiled to
    write its message (see [DEBUG]); the symbol that switches it is defined
    outside this file. *)
Record build : Type := Build {
  ICD_VALGRIND : bool;
  debug_logging : bool
}.

(** ** Observable events *)

(** The three callgrind client requests used by the file
    ([CALLGRIND_START_INSTRUMENTATION], [CALLGRIND_ZERO_STATS],
    [CALLGRIND_STOP_INSTRUMENTATION] of valgrind/callgrind.h). *)
Inductive request : Type :=
| START_INSTRUMENTATION
| ZERO_STATS
| STOP_INSTRUMENTATION.

(** What a call can do to the outside world.  [Rcout line] stands for
    [Rcout << line << std::endl]. *)
Inductive event : Type :=
| Rcout (line : string)
| Callgrind (r : request)
| Diagnostic (msg : string).

(** The history of the process, oldest event first. *)
Definition world : Type := list event.

(** ** The effect monad *)

Definition M (A : Type) : Type := world -> A * world.

Definition ret {A : Type} (a : A) : M A := fun w => (a, w).

Definition bind {A B : Type} (m : M A) (k : A -> M B) : M B :=
  fun w => let (a, w') := m w in k a w'.

Notation "x <- m ;; k" := (bind m (fun x => k))
  (at level 61, m at next level, right associativity).
Notation "m ;; k" := (bind m (fun _ => k))
  (at level 61, right associativity).

Definition skip : M unit := ret tt.

Definition emit (e : event) : M unit := fun w => (tt, w ++ [e]).

(** Modelled from the spec: the [DEBUG] macro comes from local.h, which is
    not part of the sources at hand.  The specification describes it as a
    conditional, debug-only logging macro that (optionally) emits a
    debug-level diagnostic and does nothing else: with debug logging
    compiled in it writes its message as one diagnostic line, otherwise it
    expands to nothing. *)
Definition DEBUG (cfg : build) (msg : string) : M unit :=
  if debug_logging cfg then emit (Diagnostic msg) else skip.

(** ** The two exported functions *)

(** [int valgrindCallgrindStart(bool zerostats = false)] *)
Definition valgrindCallgrindStart (cfg : build) (zerostats : bool) : M Z :=
  (if zerostats then skip else skip) ;;                     (* no-op *)
  (if ICD_VALGRIND cfg then
     emit (Rcout "Starting callgrind instrumentation...") ;;
     emit (Callgrind START_INSTRUMENTATION) ;;
     if zerostats then
       emit (Rcout "Zeroing callgrind stats.") ;;
       emit (Callgrind ZERO_STATS)
     else skip
   else
     DEBUG cfg "NOT starting Valgrind callgrind instrumentation, not linked") ;;
  ret 0.

(** [int valgrindCallgrindStop()] *)
Definition valgrindCallgrindStop (cfg : build) : M Z :=
  (if ICD_VALGRIND cfg then
     emit (Rcout "Stopping Valgrind callgrind instrumentation...") ;;
     emit (Callgrind STOP_INSTRUMENTATION)
   else
     DEBUG cfg "NOT stopping Valgrind callgrind instrumentation, not linked.") ;;
  ret 0.

(** ** The host side: sequences of calls *)

(** A call made by the R session. *)
Inductive call : Type :=
| Start (zerostats : bool)
| Stop.

Definition invoke (cfg : build) (c : call) : M Z :=
  match c with
  | Start zerostats => valgrindCallgrindStart cfg zerostats
  | Stop => valgrindCallgrindStop cfg
  end.

(** Runs the calls one after the other and collects their return values. *)
Fixpoint session (cfg : build) (cs : list call) : M (list Z) :=
  match cs with
  | [] => ret []
  | c :: cs' =>
      r <- invoke cfg c ;;
      rs <- session cfg cs' ;;
      ret (r :: rs)
  end.

(** ** Observations *)

(** What a computation adds to a history [w]. *)
Definition emitted {A : Type} (m : M A) (w : world) : list event :=
  skipn (length w) (snd (m w)).

(** The value a computation returns on a history [w]. *)
Definition result {A : Type} (m : M A) (w : world) : A := fst (m w).

(** The client requests among some events, in order. *)
Fixpoint requests (out : list event) : list request :=
  match out with
  | [] => []
  | Callgrind r :: out' => r :: requests out'
  | _ :: out' => requests out'
  end.

(** The lines written to [Rcout] among some events, in order. *)
Fixpoint notices (out : list event) : list string :=
  match out with
  | [] => []
  | Rcout line :: out' => line :: notices out'
  | _ :: out' => notices out'
  end.

(** An event with its text erased. *)
Inductive shape : Type :=
| ConsoleLine
| ClientRequest (r : request)
| DebugLine.

Definition shape_of (e : event) : shape :=
  match e with
  | Rcout _ => ConsoleLine
  | Callgrind r => ClientRequest r
  | Diagnostic _ => DebugLine
  end.

(** [mentions needle text]: [needle] occurs in [text]. *)
Definition mentions (needle text : string) : bool :=
  match index 0 needle text with
  | Some _ => true
  | None => false
  end.

Definition is_not_linked_diagnostic (e : event) : bool :=
  match e with
  | Diagnostic msg => mentions "not linked" msg
  | _ => false
  end.

(** ** The backend at the other end of the client requests *)

(** Any backend is a state with one transition per client request. *)
Class Backend (B : Type) : Type := {
  start_instrumentation : B -> B;
  zero_stats : B -> B;
  stop_instrumentation : B -> B
}.

Definition client_request {B : Type} `{Backend B} (r : request) : B -> B :=
  match r with
  | START_INSTRUMENTATION => start_instrumentation
  | ZERO_STATS => zero_stats
  | STOP_INSTRUMENTATION => stop_instrumentation
  end.

(** The backend state after it has received the requests among [out]. *)
Fixpoint drive {B : Type} `{Backend B} (out : list event) (b : B) : B :=
  match out with
  | [] => b
  | Callgrind r :: out' => drive out' (client_request r b)
  | _ :: out' => drive out' b
  end.

(** Modelled from the spec: the profiler itself is external to the
    repository.  The specification's scenario uses a simulated backend
    that records the signals it receives; it has the two states
    inactive/active and accumulated statistics, which only a zero-stats
    signal resets. *)
Record simulated : Type := Simulated {
  active : bool;
  statistics : N;
  recorded : list request
}.

#[export] Instance simulated_backend : Backend simulated := {
  start_instrumentation s :=
    Simulated true (statistics s) (recorded s ++ [START_INSTRUMENTATION]);
  zero_stats s :=
    Simulated (active s) 0%N (recorded s ++ [ZERO_STATS]);
  stop_instrumentation s :=
    Simulated false (statistics s) (recorded s ++ [STOP_INSTRUMENTATION])
}.

(** ** Append-only computations

    [writes m a out]: whatever the history, [m] returns [a] and leaves the
    history extended by exactly [out].  Every primitive of the monad is of
    this kind, and the property composes along [bind]. *)

Definition writes {A : Type} (m : M A) (a : A) (out : list event) : Prop :=
  forall w, m w = (a, w ++ out).

(** ** The events of each call, branch by branch

    Closed forms of what one call emits; [start_writes] and [stop_writes]
    below prove them against the functions themselves. *)

(** The events of one call to [valgrindCallgrindStart]. *)
Definition start_events (cfg : build) (zerostats : bool) : list event :=
  if ICD_VALGRIND cfg then
    [Rcout "Starting callgrind instrumentation...";
     Callgrind START_INSTRUMENTATION]
    ++ (if zerostats then
          [Rcout "Zeroing callgrind stats."; Callgrind ZERO_STATS]
        else [])
  else if debug_logging cfg then
    [Diagnostic "NOT starting Valgrind callgrind instrumentation, not linked"]
  else [].

(** The events of one call to [valgrindCallgrindStop]. *)
Definition stop_events (cfg : build) : list event :=
  if ICD_VALGRIND cfg then
    [Rcout "Stopping Valgrind callgrind instrumentation...";
     Callgrind STOP_INSTRUMENTATION]
  else if debug_logging cfg then
    [Diagnostic "NOT stopping Valgrind callgrind instrumentation, not linked."]
  else [].

Definition call_events (cfg : build) (c : call) : list event :=
  match c with
  | Start zerostats => start_events cfg zerostats
  | Stop => stop_events cfg
  end.

(** The client requests of one call in a build with [ICD_VALGRIND]. *)
Definition call_requests (c : call) : list request :=
  match c with
  | Start zerostats =>
      START_INSTRUMENTATION :: (if zerostats then [ZERO_STATS] else [])
  | Stop => [STOP_INSTRUMENTATION]
  end.

(** What one call does to a backend in a build with [ICD_VALGRIND]. *)
Definition call_transition {B : Type} `{Backend B} (b : B) (c : call) : B :=
  match c with
  | Start zerostats =>
      if zerostats then zero_stats (start_instrumentation b)
      else start_instrumentation b
  | Stop => stop_instrumentation b
  end.

(** A request together with the console line that announces it. *)
Definition announced (r : request) : list shape :=
  [ConsoleLine; ClientRequest r].

Definition is_diagnostic (e : event) : bool :=
  match e with
  | Diagnostic _ => true
  | _ => false
  end.

(** ** Concrete runs *)

Example start_true_with_backend :
  valgrindCallgrindStart (Build true false) true []
  = (0, [Rcout "Starting callgrind instrumentation...";
         Callgrind START_INSTRUMENTATION;
         Rcout "Zeroing callgrind stats.";
         Callgrind ZERO_STATS]).
Proof. reflexivity. Qed.

Example start_false_with_backend :
  valgrindCallgrindStart (Build true true) false [Rcout "earlier"]
  = (0, [Rcout "earlier";
         Rcout "Starting callgrind instrumentation...";
         Callgrind START_INSTRUMENTATION]).
Proof. reflexivity. Qed.

Example start_true_without_backend :
  valgrindCallgrindStart (Build false true) true []
  = (0, [Diagnostic "NOT starting Valgrind callgrind instrumentation, not linked"]).
Proof. reflexivity. Qed.

Example stop_without_backend_quiet :
  valgrindCallgrindStop (Build false false) [] = (0, []).
Proof. reflexivity. Qed.

Example stop_then_start_twice :
  session (Build true false) [Stop; Start false; Start false] []
  = ([0; 0; 0],
     [Rcout "Stopping Valgrind callgrind instrumentation...";
      Callgrind STOP_INSTRUMENTATION;
      Rcout "Starting callgrind instrumentation...";
      Callgrind START_INSTRUMENTATION;
      Rcout "Starting callgrind instrumentation...";
      Callgrind START_INSTRUMENTATION]).
Proof. reflexivity. Qed.

Example simulated_backend_after_start_true_stop :
  drive (emitted (session (Build true false) [Start true; Stop]) [])
        (Simulated false 7%N [])
  = Simulated false 0%N [START_INSTRUMENTATION; ZERO_STATS; STOP_INSTRUMENTATION].
Proof. reflexivity. Qed.

(** ** Append-only computations compose *)

Lemma writes_ret {A : Type} (a : A) : writes (ret a) a [].
Proof. intro w. unfold ret. now rewrite app_nil_r. Qed.

Lemma writes_skip : writes skip tt [].
Proof. exact (writes_ret tt). Qed.

Lemma writes_emit (e : event) : writes (emit e) tt [e].
Proof. intro w. reflexivity. Qed.

Lemma writes_bind {A B : Type} (m : M A) (k : A -> M B) a b out1 out2 :
  writes m a out1 -> writes (k a) b out2 -> writes (bind m k) b (out1 ++ out2).
Proof.
  intros Hm Hk w. unfold bind. rewrite Hm, Hk. now rewrite app_assoc.
Qed.

Lemma writes_ext {A : Type} (m : M A) a out out' :
  writes m a out -> out = out' -> writes m a out'.
Proof. now intros H <-. Qed.

Lemma writes_DEBUG cfg msg :
  writes (DEBUG cfg msg) tt (if debug_logging cfg then [Diagnostic msg] else []).
Proof.
  unfold DEBUG. destruct (debug_logging cfg); [apply writes_emit | apply writes_skip].
Qed.

Create HintDb writes discriminated.
#[export] Hint Resolve writes_ret writes_skip writes_emit writes_DEBUG : writes.

(** Decomposes a straight-line block into its primitives. *)
Ltac writes_block :=
  repeat first [ solve [auto with writes] | eapply writes_bind ].

Ltac solve_writes :=
  eapply writes_ext; [ writes_block | try reflexivity ].

Lemma skipn_length_app {A : Type} (l out : list A) :
  skipn (length l) (l ++ out) = out.
Proof. induction l as [| x l IH]; [reflexivity | exact IH]. Qed.

Lemma writes_result {A : Type} (m : M A) a out w :
  writes m a out -> result m w = a.
Proof. intro H. unfold result. now rewrite H. Qed.

Lemma writes_emitted {A : Type} (m : M A) a out w :
  writes m a out -> emitted m w = out.
Proof. intro H. unfold emitted. rewrite H. apply skipn_length_app. Qed.

Lemma writes_world {A : Type} (m : M A) a out w :
  writes m a out -> snd (m w) = w ++ out.
Proof. intro H. now rewrite H. Qed.

(** ** What each function writes *)

Lemma start_writes cfg zerostats :
  writes (valgrindCallgrindStart cfg zerostats) 0 (start_events cfg zerostats).
Proof.
  unfold valgrindCallgrindStart, start_events.
  destruct (ICD_VALGRIND cfg).
  - destruct zerostats; solve_writes.
  - destruct zerostats; solve_writes;
      destruct (debug_logging cfg); reflexivity.
Qed.

Lemma stop_writes cfg :
  writes (valgrindCallgrindStop cfg) 0 (stop_events cfg).
Proof.
  unfold valgrindCallgrindStop, stop_events.
  destruct (ICD_VALGRIND cfg); solve_writes.
  destruct (debug_logging cfg); reflexivity.
Qed.

Lemma invoke_writes cfg c : writes (invoke cfg c) 0 (call_events cfg c).
Proof. destruct c; [apply start_writes | apply stop_writes]. Qed.

Lemma session_writes cfg cs :
  writes (session cfg cs) (map (fun _ => 0) cs) (flat_map (call_events cfg) cs).
Proof.
  induction cs as [| c cs IH]; simpl.
  - apply writes_ret.
  - eapply writes_ext.
    + eapply writes_bind; [apply invoke_writes |].
      eapply writes_bind; [exact IH | apply writes_ret].
    + now rewrite app_nil_r.
Qed.

(** ** Return values *)

(** C1: whatever the value of the flag, whichever way the file was built
    and whatever happened before, [valgrindCallgrindStart] returns exactly
    [0]; the computation is total and has no other outcome. *)
Theorem start_returns_zero (cfg : build) (zerostats : bool) (w : world) :
  result (valgrindCallgrindStart cfg zerostats) w = 0.
Proof. exact (writes_result _ _ _ w (start_writes cfg zerostats)). Qed.

(** C2: [valgrindCallgrindStop] takes no argument and returns exactly [0]
    in both build configurations and on every history; there is no error
    outcome. *)
Theorem stop_returns_zero (cfg : build) (w : world) :
  result (valgrindCallgrindStop cfg) w = 0.
Proof. exact (writes_result _ _ _ w (stop_writes cfg)). Qed.

(** ** The build without the backend *)

(** C3: without [ICD_VALGRIND], [start(true)] sends no client request and
    writes nothing on [Rcout]; it returns what [start(false)] returns and
    its output has the same events as that of [start(false)] once the
    diagnostic text is set aside. *)
Theorem start_flag_ignored_without_backend (cfg : build) (w : world) :
  ICD_VALGRIND cfg = false ->
  requests (emitted (valgrindCallgrindStart cfg true) w) = [] /\
  notices (emitted (valgrindCallgrindStart cfg true) w) = [] /\
  result (valgrindCallgrindStart cfg true) w
  = result (valgrindCallgrindStart cfg false) w /\
  map shape_of (emitted (valgrindCallgrindStart cfg true) w)
  = map shape_of (emitted (valgrindCallgrindStart cfg false) w).
Proof.
  intro Hoff.
  rewrite !(writes_emitted _ _ _ w (start_writes cfg _)).
  rewrite !(writes_result _ _ _ w (start_writes cfg _)).
  unfold start_events. rewrite Hoff.
  destruct (debug_logging cfg); repeat split.
Qed.

Lemma start_flag_ignored_without_backend_witness :
  ICD_VALGRIND (Build false true) = false /\
  requests (emitted (valgrindCallgrindStart (Build false true) true) []) = [] /\
  notices (emitted (valgrindCallgrindStart (Build false true) true) []) = [] /\
  result (valgrindCallgrindStart (Build false true) true) []
  = result (valgrindCallgrindStart (Build false true) false) [] /\
  map shape_of (emitted (valgrindCallgrindStart (Build false true) true) [])
  = map shape_of (emitted (valgrindCallgrindStart (Build false true) false) []).
Proof.
  split; [reflexivity |].
  exact (start_flag_ignored_without_backend (Build false true) [] eq_refl).
Defined.

(** C7: without [ICD_VALGRIND], [valgrindCallgrindStop] returns [0], sends
    no client request and writes nothing on [Rcout]; all it emits is the
    [DEBUG] diagnostic "NOT stopping Valgrind callgrind instrumentation,
    not linked.", which says that the backend is not linked. *)
Theorem stop_without_backend (cfg : build) (w : world) :
  ICD_VALGRIND cfg = false ->
  result (valgrindCallgrindStop cfg) w = 0 /\
  requests (emitted (valgrindCallgrindStop cfg) w) = [] /\
  notices (emitted (valgrindCallgrindStop cfg) w) = [] /\
  forallb is_not_linked_diagnostic (emitted (valgrindCallgrindStop cfg) w) = true /\
  emitted (valgrindCallgrindStop cfg) w
  = emitted
      (DEBUG cfg "NOT stopping Valgrind callgrind instrumentation, not linked.") w /\
  emitted (valgrindCallgrindStop cfg) w
  = if debug_logging cfg then
      [Diagnostic "NOT stopping Valgrind callgrind instrumentation, not linked."]
    else [].
Proof.
  intro Hoff.
  rewrite !(writes_emitted _ _ _ w (stop_writes cfg)).
  rewrite (writes_result _ _ _ w (stop_writes cfg)).
  rewrite (writes_emitted _ _ _ w (writes_DEBUG cfg _)).
  unfold stop_events. rewrite Hoff.
  destruct (debug_logging cfg); repeat split.
Qed.

Lemma stop_without_backend_witness :
  ICD_VALGRIND (Build false true) = false /\
  result (valgrindCallgrindStop (Build false true)) [] = 0 /\
  emitted (valgrindCallgrindStop (Build false true)) []
  = [Diagnostic "NOT stopping Valgrind callgrind instrumentation, not linked."].
Proof.
  split; [reflexivity |].
  destruct (stop_without_backend (Build false true) [] eq_refl)
    as (Hret & _ & _ & _ & _ & Hout).
  split; [exact Hret | exact Hout].
Defined.

(** C8: without [ICD_VALGRIND], the two calls [start(true)] and
    [start(false)] are the same computation: same return value, same final
    history, hence the same diagnostic, text included. *)
Theorem start_true_is_start_false_without_backend (cfg : build) (w : world) :
  ICD_VALGRIND cfg = false ->
  valgrindCallgrindStart cfg true w = valgrindCallgrindStart cfg false w /\
  emitted (valgrindCallgrindStart cfg true) w
  = emitted (valgrindCallgrindStart cfg false) w /\
  emitted (valgrindCallgrindStart cfg true) w
  = if debug_logging cfg then
      [Diagnostic "NOT starting Valgrind callgrind instrumentation, not linked"]
    else [].
Proof.
  intro Hoff.
  rewrite !(writes_emitted _ _ _ w (start_writes cfg _)).
  rewrite !(start_writes cfg _ w).
  unfold start_events. rewrite Hoff. repeat split.
Qed.

Lemma start_true_is_start_false_without_backend_witness :
  ICD_VALGRIND (Build false true) = false /\
  valgrindCallgrindStart (Build false true) true []
  = valgrindCallgrindStart (Build false true) false [] /\
  emitted (valgrindCallgrindStart (Build false true) true) []
  = emitted (valgrindCallgrindStart (Build false true) false) [] /\
  emitted (valgrindCallgrindStart (Build false true) true) []
  = [Diagnostic "NOT starting Valgrind callgrind instrumentation, not linked"].
Proof.
  split; [reflexivity |].
  exact (start_true_is_start_false_without_backend (Build false true) [] eq_refl).
Defined.

(** ** The build with the backend *)

(** C4: with [ICD_VALGRIND], the calls [start(true)] and then [stop()]
    both return [0], and the history grows by, in this order: the starting
    notice, the start-instrumentation request, the zeroing notice, the
    zero-stats request, the stopping notice, the stop-instrumentation
    request.  A recording backend therefore sees start, zero, stop. *)
Theorem start_true_then_stop (cfg : build) (w : world) :
  ICD_VALGRIND cfg = true ->
  result (session cfg [Start true; Stop]) w = [0; 0] /\
  emitted (session cfg [Start true; Stop]) w
  = [Rcout "Starting callgrind instrumentation...";
     Callgrind START_INSTRUMENTATION;
     Rcout "Zeroing callgrind stats.";
     Callgrind ZERO_STATS;
     Rcout "Stopping Valgrind callgrind instrumentation...";
     Callgrind STOP_INSTRUMENTATION] /\
  requests (emitted (session cfg [Start true; Stop]) w)
  = [START_INSTRUMENTATION; ZERO_STATS; STOP_INSTRUMENTATION] /\
  forall s : simulated,
    recorded (drive (emitted (session cfg [Start true; Stop]) w) s)
    = recorded s ++ [START_INSTRUMENTATION; ZERO_STATS; STOP_INSTRUMENTATION].
Proof.
  intro Hon.
  rewrite !(writes_emitted _ _ _ w (session_writes cfg _)).
  rewrite (writes_result _ _ _ w (session_writes cfg _)).
  simpl. unfold start_events, stop_events. rewrite Hon. simpl.
  repeat split.
  intro s. simpl. now rewrite <- !app_assoc.
Qed.

Lemma start_true_then_stop_witness :
  ICD_VALGRIND (Build true false) = true /\
  result (session (Build true false) [Start true; Stop]) [] = [0; 0] /\
  requests (emitted (session (Build true false) [Start true; Stop]) [])
  = [START_INSTRUMENTATION; ZERO_STATS; STOP_INSTRUMENTATION] /\
  recorded (drive (emitted (session (Build true false) [Start true; Stop]) [])
                  (Simulated false 7%N []))
  = [START_INSTRUMENTATION; ZERO_STATS; STOP_INSTRUMENTATION].
Proof.
  split; [reflexivity |].
  destruct (start_true_then_stop (Build true false) [] eq_refl)
    as (Hret & _ & Hreq & Hrec).
  split; [exact Hret |]. split; [exact Hreq |].
  exact (Hrec (Simulated false 7%N [])).
Defined.

(** C5: with [ICD_VALGRIND], [valgrindCallgrindStart] sends the zero-stats
    request exactly when [zerostats] is true, and writes the zeroing notice
    exactly then.  With [zerostats] false it emits the starting notice and
    the start-instrumentation request and nothing else, so that any backend
    ends in the state that starting alone gives, and the statistics of the
    simulated backend are the ones it had. *)
Theorem start_zeroes_stats_iff_asked (cfg : build) (zerostats : bool) (w : world) :
  ICD_VALGRIND cfg = true ->
  (In (Callgrind ZERO_STATS) (emitted (valgrindCallgrindStart cfg zerostats) w)
   <-> zerostats = true) /\
  (In (Rcout "Zeroing callgrind stats.")
      (emitted (valgrindCallgrindStart cfg zerostats) w)
   <-> zerostats = true) /\
  (zerostats = false ->
   emitted (valgrindCallgrindStart cfg zerostats) w
   = [Rcout "Starting callgrind instrumentation...";
      Callgrind START_INSTRUMENTATION]) /\
  (forall (B : Type) (HB : Backend B) (b : B),
     drive (emitted (valgrindCallgrindStart cfg zerostats) w) b
     = if zerostats then zero_stats (start_instrumentation b)
       else start_instrumentation b) /\
  (forall s : simulated,
     zerostats = false ->
     statistics (drive (emitted (valgrindCallgrindStart cfg zerostats) w) s)
     = statistics s).
Proof.
  intro Hon.
  rewrite !(writes_emitted _ _ _ w (start_writes cfg _)).
  unfold start_events. rewrite Hon.
  destruct zerostats; simpl; repeat split;
    try reflexivity; try discriminate; try tauto.
  all: intros [H | [H | H]]; solve [discriminate H | destruct H].
Qed.

Lemma start_zeroes_stats_iff_asked_witness :
  ICD_VALGRIND (Build true false) = true /\
  ~ In (Callgrind ZERO_STATS)
       (emitted (valgrindCallgrindStart (Build true false) false) []) /\
  emitted (valgrindCallgrindStart (Build true false) false) []
  = [Rcout "Starting callgrind instrumentation...";
     Callgrind START_INSTRUMENTATION] /\
  statistics (drive (emitted (valgrindCallgrindStart (Build true false) false) [])
                    (Simulated false 7%N []))
  = 7%N.
Proof.
  split; [reflexivity |].
  destruct (start_zeroes_stats_iff_asked (Build true false) false [] eq_refl)
    as (Hzero & _ & Hout & _ & Hstat).
  split; [| split].
  - intro Hin. apply Hzero in Hin. discriminate Hin.
  - exact (Hout eq_refl).
  - exact (Hstat (Simulated false 7%N []) eq_refl).
Defined.

(** ** Sequences of calls *)

Lemma session_results cfg cs w :
  result (session cfg cs) w = map (fun _ => 0) cs.
Proof. exact (writes_result _ _ _ w (session_writes cfg cs)). Qed.

(** C6: no order of calls produces an error.  Every call of every sequence
    returns [0]; in particular [stop] on the empty history (before any
    [start]) returns [0], and two [start]s in a row return [0] both times.
    The functions do not tell a repeated or out-of-order call from a first
    one: after any sequence of calls each call emits what it emits on the
    empty history. *)
Theorem any_call_order_succeeds (cfg : build) (cs : list call) (w : world) :
  Forall (fun r => r = 0) (result (session cfg cs) w) /\
  length (result (session cfg cs) w) = length cs /\
  result (session cfg [Stop]) [] = [0] /\
  (forall a b : bool, result (session cfg [Start a; Start b]) w = [0; 0]) /\
  (forall c : call,
     result (invoke cfg c) (snd (session cfg cs w)) = 0 /\
     emitted (invoke cfg c) (snd (session cfg cs w)) = emitted (invoke cfg c) []).
Proof.
  rewrite session_results.
  split; [| split; [| split; [| split]]].
  - apply Forall_forall. intros r Hr.
    apply in_map_iff in Hr. now destruct Hr as (c & <- & _).
  - apply length_map.
  - apply session_results.
  - intros a b. apply session_results.
  - intro c. split.
    + exact (writes_result _ _ _ _ (invoke_writes cfg c)).
    + now rewrite !(writes_emitted _ _ _ _ (invoke_writes cfg c)).
Qed.

(** C9: both functions are deterministic.  For a fixed build, two
    invocations with the same arguments, made at any two points of the
    process's history, return the same value and emit the same sequence of
    notices, diagnostics and client requests; from the same history they
    end in the same history. *)
Theorem invocations_agree (cfg : build) (c : call) (w1 w2 : world) :
  result (invoke cfg c) w1 = result (invoke cfg c) w2 /\
  emitted (invoke cfg c) w1 = emitted (invoke cfg c) w2 /\
  notices (emitted (invoke cfg c) w1) = notices (emitted (invoke cfg c) w2) /\
  requests (emitted (invoke cfg c) w1) = requests (emitted (invoke cfg c) w2) /\
  (forall c' : call, c' = c -> w1 = w2 -> invoke cfg c' w1 = invoke cfg c w2).
Proof.
  rewrite !(writes_result _ _ _ _ (invoke_writes cfg c)).
  rewrite !(writes_emitted _ _ _ _ (invoke_writes cfg c)).
  repeat split. intros c' -> ->. reflexivity.
Qed.

(** C10: the functions keep no state between calls.  After any sequence of
    earlier calls, started from any history, a call returns what it returns
    on the empty history, leaves everything emitted before it in place and
    appends what it emits on the empty history: its outcome is a function
    of its argument and of the build alone. *)
Theorem call_independent_of_history
    (cfg : build) (cs : list call) (c : call) (w : world) :
  result (invoke cfg c) (snd (session cfg cs w)) = result (invoke cfg c) [] /\
  snd (invoke cfg c (snd (session cfg cs w)))
  = snd (session cfg cs w) ++ emitted (invoke cfg c) [] /\
  emitted (invoke cfg c) [] = call_events cfg c /\
  result (session cfg (cs ++ [c])) w = result (session cfg cs) w ++ [0] /\
  emitted (session cfg (cs ++ [c])) w
  = emitted (session cfg cs) w ++ emitted (invoke cfg c) [].
Proof.
  rewrite !(writes_result _ _ _ _ (invoke_writes cfg c)).
  rewrite !(writes_emitted _ _ _ _ (invoke_writes cfg c)).
  rewrite (writes_world _ _ _ _ (invoke_writes cfg c)).
  rewrite !session_results.
  rewrite !(writes_emitted _ _ _ _ (session_writes cfg _)).
  repeat split.
  - now rewrite map_app.
  - rewrite flat_map_app. simpl. now rewrite app_nil_r.
Qed.

(** ** Whole sessions

    Facts about every sequence of calls, by induction on the sequence. *)

Lemma requests_app out1 out2 :
  requests (out1 ++ out2) = requests out1 ++ requests out2.
Proof.
  induction out1 as [| [line | r | msg] out1 IH]; simpl; now rewrite ?IH.
Qed.

Lemma notices_app out1 out2 :
  notices (out1 ++ out2) = notices out1 ++ notices out2.
Proof.
  induction out1 as [| [line | r | msg] out1 IH]; simpl; now rewrite ?IH.
Qed.

Lemma drive_app {B : Type} `{Backend B} out1 out2 (b : B) :
  drive (out1 ++ out2) b = drive out2 (drive out1 b).
Proof.
  revert b.
  induction out1 as [| [line | r | msg] out1 IH]; intro b; simpl; now rewrite ?IH.
Qed.

Lemma session_emitted cfg cs w :
  emitted (session cfg cs) w = flat_map (call_events cfg) cs.
Proof. exact (writes_emitted _ _ _ w (session_writes cfg cs)). Qed.

Section WithoutBackend.

Variable cfg : build.
Hypothesis Hoff : ICD_VALGRIND cfg = false.

Lemma call_events_off c :
  call_events cfg c = [] \/
  exists msg, call_events cfg c = [Diagnostic msg] /\
              mentions "not linked" msg = true.
Proof.
  destruct c as [z |]; simpl; unfold start_events, stop_events;
    rewrite Hoff; destruct (debug_logging cfg); auto;
    right; eexists; split; reflexivity.
Qed.

(** X1: in a build without [ICD_VALGRIND], no sequence of calls ever
    sends a client request or writes on [Rcout]; everything it emits is
    a diagnostic saying that the backend is not linked, and any backend
    is left in the state it was in. *)
Theorem session_without_backend_is_inert (cs : list call) (w : world) :
  requests (emitted (session cfg cs) w) = [] /\
  notices (emitted (session cfg cs) w) = [] /\
  forallb is_not_linked_diagnostic (emitted (session cfg cs) w) = true /\
  forall (B : Type) (HB : Backend B) (b : B),
    drive (emitted (session cfg cs) w) b = b.
Proof.
  rewrite session_emitted.
  induction cs as [| c cs (IHr & IHn & IHd & IHb)]; simpl.
  - repeat split.
  - rewrite requests_app, notices_app, forallb_app, IHr, IHn, IHd.
    destruct (call_events_off c) as [-> | (msg & -> & Hmsg)]; simpl.
    + repeat split. exact IHb.
    + rewrite Hmsg. repeat split. exact IHb.
Qed.

End WithoutBackend.

Lemma session_without_backend_is_inert_witness :
  ICD_VALGRIND (Build false true) = false /\
  requests (emitted (session (Build false true) [Stop; Start true; Start false])
                    [Rcout "earlier"]) = [] /\
  drive (emitted (session (Build false true) [Stop; Start true; Start false])
                 [Rcout "earlier"]) (Simulated true 7%N [])
  = Simulated true 7%N [].
Proof.
  split; [reflexivity |].
  destruct (session_without_backend_is_inert (Build false true) eq_refl
              [Stop; Start true; Start false] [Rcout "earlier"])
    as (Hreq & _ & _ & Hb).
  split; [exact Hreq | exact (Hb _ _ (Simulated true 7%N []))].
Defined.

Section WithBackend.

Variable cfg : build.
Hypothesis Hon : ICD_VALGRIND cfg = true.

Lemma call_events_on c :
  requests (call_events cfg c) = call_requests c /\
  map shape_of (call_events cfg c) = flat_map announced (call_requests c) /\
  existsb is_diagnostic (call_events cfg c) = false.
Proof.
  destruct c as [[] |]; simpl; unfold start_events, stop_events;
    rewrite Hon; repeat split.
Qed.

(** X3: in a build with [ICD_VALGRIND], whatever the sequence of calls,
    the output is a succession of pairs: a line on [Rcout] and, right
    after it, a client request.  No request goes unannounced and no
    notice is written without its request; there are as many of the one
    as of the other. *)
Theorem every_request_is_announced (cs : list call) (w : world) :
  map shape_of (emitted (session cfg cs) w)
  = flat_map announced (requests (emitted (session cfg cs) w)) /\
  length (notices (emitted (session cfg cs) w))
  = length (requests (emitted (session cfg cs) w)).
Proof.
  rewrite session_emitted.
  induction cs as [| c cs (IHs & IHl)]; simpl; [split; reflexivity |].
  rewrite map_app, requests_app, notices_app, flat_map_app, !length_app.
  rewrite IHs, IHl.
  destruct c as [[] |]; simpl; unfold start_events, stop_events;
    rewrite Hon; split; reflexivity.
Qed.

(** X4: in a build with [ICD_VALGRIND], the requests of a sequence of
    calls are those of its calls, one call after the other: a [start]
    sends start-instrumentation, followed by zero-stats when its flag is
    set, and a [stop] sends stop-instrumentation.  So zero-stats is only
    ever sent right after a start-instrumentation of the same call. *)
Theorem session_requests (cs : list call) (w : world) :
  requests (emitted (session cfg cs) w) = flat_map call_requests cs.
Proof.
  rewrite session_emitted.
  induction cs as [| c cs IH]; simpl; [reflexivity |].
  rewrite requests_app, IH.
  now destruct (call_events_on c) as (-> & _).
Qed.

(** X5: in a build with [ICD_VALGRIND], for any backend, the state it
    is in after a sequence of calls is obtained by folding the calls'
    own transitions over the state it started in; the notices play no
    part. *)
Theorem session_drives_backend
    (B : Type) (HB : Backend B) (cs : list call) (w : world) (b : B) :
  drive (emitted (session cfg cs) w) b = fold_left call_transition cs b.
Proof.
  rewrite session_emitted. revert b.
  induction cs as [| c cs IH]; intro b; simpl; [reflexivity |].
  rewrite drive_app, IH. f_equal.
  destruct c as [[] |]; simpl; unfold start_events, stop_events;
    rewrite Hon; reflexivity.
Qed.

End WithBackend.

Lemma every_request_is_announced_witness :
  ICD_VALGRIND (Build true true) = true /\
  map shape_of (emitted (session (Build true true) [Stop; Start true]) [])
  = [ConsoleLine; ClientRequest STOP_INSTRUMENTATION;
     ConsoleLine; ClientRequest START_INSTRUMENTATION;
     ConsoleLine; ClientRequest ZERO_STATS].
Proof.
  split; [reflexivity |].
  exact (proj1 (every_request_is_announced (Build true true) eq_refl
                  [Stop; Start true] [])).
Defined.

Lemma session_requests_witness :
  ICD_VALGRIND (Build true false) = true /\
  requests (emitted (session (Build true false) [Start false; Start true; Stop])
                    [Rcout "earlier"])
  = [START_INSTRUMENTATION; START_INSTRUMENTATION; ZERO_STATS;
     STOP_INSTRUMENTATION].
Proof.
  split; [reflexivity |].
  exact (session_requests (Build true false) eq_refl
           [Start false; Start true; Stop] [Rcout "earlier"]).
Defined.

Lemma session_drives_backend_witness :
  ICD_VALGRIND (Build true false) = true /\
  drive (emitted (session (Build true false) [Start true; Stop; Start false]) [])
        (Simulated false 7%N [])
  = Simulated true 0%N
      [START_INSTRUMENTATION; ZERO_STATS; STOP_INSTRUMENTATION;
       START_INSTRUMENTATION].
Proof.
  split; [reflexivity |].
  exact (session_drives_backend (Build true false) eq_refl simulated _
           [Start true; Stop; Start false] [] (Simulated false 7%N [])).
Defined.

(** X2: in a build with [ICD_VALGRIND] the [DEBUG] macro is never
    reached: no sequence of calls emits a diagnostic, and the outcome of
    the sequence (return values and history) is the same whether debug
    logging is compiled in or not. *)
Theorem debug_switch_irrelevant_with_backend
    (d1 d2 : bool) (cs : list call) (w : world) :
  session (Build true d1) cs w = session (Build true d2) cs w /\
  existsb is_diagnostic (emitted (session (Build true d1) cs) w) = false.
Proof.
  split.
  - rewrite !(session_writes _ cs w).
    rewrite (flat_map_ext (call_events (Build true d1))
                          (call_events (Build true d2)));
      [reflexivity | now intros [[] |]].
  - rewrite session_emitted.
    induction cs as [| c cs IH]; simpl; [reflexivity |].
    rewrite existsb_app, IH.
    now destruct (call_events_on (Build true d1) eq_refl c) as (_ & _ & ->).
Qed.

(** X6: the flag of [valgrindCallgrindStart] only adds to what the call
    does: in either build, on any history, [start(true)] emits everything
    [start(false)] emits, in the same order, and after it the zeroing
    notice and the zero-stats request when [ICD_VALGRIND] is defined, and
    nothing more when it is not. *)
Theorem zerostats_only_appends (cfg : build) (w : world) :
  emitted (valgrindCallgrindStart cfg true) w
  = emitted (valgrindCallgrindStart cfg false) w
    ++ (if ICD_VALGRIND cfg then
          [Rcout "Zeroing callgrind stats."; Callgrind ZERO_STATS]
        else []).
Proof.
  rewrite !(writes_emitted _ _ _ w (start_writes cfg _)).
  unfold start_events.
  destruct (ICD_VALGRIND cfg); [reflexivity | now rewrite app_nil_r].
Qed.
